(** * Function tools: a shallow embedding of [tool/function.go]

    The Go package [tool] adapts a typed handler [func(Context, TArgs) TResults]
    into a tool that can be declared in an [llm.Request] and invoked with an
    untyped argument bag.  This file embeds the package in Rocq and proves
    the properties its specification states about registration
    ([ProcessRequest]), declaration ([Declaration]), invocation ([Run]) and
    construction ([NewFunctionTool], [resolvedSchema]).

    Conventions of the embedding:
    - a Go pointer, map or interface that may be [nil] is an [option];
    - a Go result [(T, error)] is a pair [T * option error], so that what the
      code returns next to a non-nil error stays visible;
    - a fault of the Go runtime (assignment into a nil map, dereference of a
      nil pointer) is the outcome [Panic];
    - calls that leave the package (the conversion helper, the handler) are
      recorded in a trace of events, so that "is called once" and "is never
      called" are statements about the trace;
    - the collaborators that are not part of the package (the JSON-schema
      library, the conversion helper of [internal/typeutil]) are interfaces:
      type classes whose instances the caller supplies;
    - a handler is a total function of its context and input; a handler
      that faults is outside the embedding, as it is outside [Run], which
      does not recover from it;
    - numbers in a bag are integers. *)

From Stdlib Require Import ZArith.
From stdpp Require Import base option list strings gmap fin_maps.

Set Warnings "-register-all".
Set Default Proof Using "Type*".

(* ===================================================================== *)
(** * Part I: definitions *)
(* ===================================================================== *)

(** ** Go values *)

(** A value of the empty interface [any].  [AnyNil] is the nil interface;
    [AnyMap m] is a value of dynamic type [map[string]any], where
    [m = None] is the nil map; [AnyOpaque ty] stands for a value of any
    other dynamic type, named by [ty]. *)
Inductive GoAny : Type :=
  | AnyNil
  | AnyBool (b : bool)
  | AnyInt (z : Z)
  | AnyString (s : string)
  | AnySlice (l : list GoAny)
  | AnyMap (m : option (gmap string GoAny))
  | AnyOpaque (ty : string).

(** [map[string]any]: the untyped argument and result bags. *)
Abbreviation GoMap := (option (gmap string GoAny)).

(** The type assertion [args.(map[string]any)] of the comma-ok form. *)
Definition assertMap (args : GoAny) : GoMap * bool :=
  match args with
  | AnyMap m => (m, true)
  | _ => (None, false)
  end.

(** ** Errors *)

(** Go [error] values: an error produced by a collaborator, or the result
    of [fmt.Errorf] with its format string and its one argument. *)
Inductive error : Type :=
  | LibError (msg : string)
  | Errorf (format : string) (arg : FmtArg)
with FmtArg : Type :=
  | FmtQ (s : string)      (* an argument printed with %q *)
  | FmtT (v : GoAny)       (* an argument printed with %T *)
  | FmtW (e : error).      (* an error wrapped with %w *)

(** [errors.Unwrap]. *)
Definition Unwrap (e : error) : option error :=
  match e with
  | Errorf _ (FmtW inner) => Some inner
  | _ => None
  end.

(** ** Runtime faults *)

Inductive outcome (A : Type) : Type :=
  | Done (a : A)
  | Panic (msg : string).
Arguments Done {A} a.
Arguments Panic {A} msg.

Definition outcome_bind {A B} (m : outcome A) (k : A -> outcome B) : outcome B :=
  match m with
  | Done a => k a
  | Panic msg => Panic msg
  end.

Declare Scope go_scope.
Delimit Scope go_scope with go.
Notation "x <-! m ; k" := (outcome_bind m (fun x => k))
  (at level 100, m at next level, right associativity) : go_scope.

(** [v, ok := m[k]]: reading a nil map finds nothing. *)
Definition map_index {V} (m : option (gmap string V)) (k : string) : option V :=
  match m with
  | Some g => g !! k
  | None => None
  end.

(** [m[k] = v]: assignment to an entry of a nil map is a fault. *)
Definition map_assign {V} (m : option (gmap string V)) (k : string) (v : V)
  : outcome (option (gmap string V)) :=
  match m with
  | Some g => Done (Some (<[k := v]> g))
  | None => Panic "assignment to entry in nil map"
  end.

(** [*p]: dereference of a nil pointer is a fault. *)
Definition deref {A} (p : option A) : outcome A :=
  match p with
  | Some a => Done a
  | None => Panic "invalid memory address or nil pointer dereference"
  end.

(** ** Traces of outgoing calls *)

Section Traces.
Context {Ev : Type}.

Definition Traced (A : Type) : Type := A * list Ev.

Definition tret {A} (a : A) : Traced A := (a, []).

Definition tbind {A B} (m : Traced A) (k : A -> Traced B) : Traced B :=
  let '(a, t1) := m in
  let '(b, t2) := k a in
  (b, t1 ++ t2).

(** A call that leaves the package: it is recorded, and yields [a]. *)
Definition call {A} (e : Ev) (a : A) : Traced A := (a, [e]).
End Traces.
Arguments Traced : clear implicits.

Notation "x <-$ m ; k" := (tbind m (fun x => k))
  (at level 100, m at next level, right associativity) : go_scope.

Open Scope go_scope.

(** ** Collaborators *)

(** The JSON-schema library ([github.com/google/jsonschema-go]), as far as
    the package uses it: raw schemas, resolved schemas, the method
    [Resolve] of a possibly nil pointer to a schema, and the method
    [Schema] of a resolved schema, which renders it back to its raw
    document. *)
Class JSONSchema : Type := {
  Schema : Type;
  Resolved : Type;
  Schema_Resolve : option Schema -> option Resolved * option error;
  Resolved_Schema : Resolved -> Schema;
}.

(** [jsonschema.For[T](nil)]: schema inference from the static shape of
    [T].  An instance of this class is the type descriptor of [T]. *)
Class TypeSchema {lib : JSONSchema} (T : Type) : Type := {
  For : option Schema * option error;
}.
Arguments For {_} T {_}.

(** [typeutil.ConvertToWithJSONSchema[From, To]]: the conversion helper of
    [internal/typeutil], one instance for each pair of types it is
    instantiated at. *)
Class ConvertTo {lib : JSONSchema} (From To : Type) : Type := {
  ConvertToWithJSONSchema : From -> option Resolved -> To * option error;
}.

(** ** The generative-model request *)

Section Request.
Context {lib : JSONSchema}.

(** [genai.FunctionDeclaration]; the two schema fields have type [any]
    and are [None] until they are set. *)
Record FunctionDeclaration : Type := {
  fd_Name : string;
  fd_Description : string;
  ParametersJsonSchema : option Schema;
  ResponseJsonSchema : option Schema;
}.

(** [genai.Tool]: one declaration-set entry. *)
Record genaiTool : Type := {
  FunctionDeclarations : list FunctionDeclaration;
}.

(** [genai.GenerateContentConfig], restricted to the field the package
    touches. *)
Record GenerateContentConfig : Type := {
  gc_Tools : list genaiTool;
}.

(** [&genai.GenerateContentConfig{}]. *)
Definition zeroGenerateContentConfig : GenerateContentConfig :=
  {| gc_Tools := [] |}.

(** [llm.Request], restricted to the fields the package touches.  The
    values of the tool map have type [any]; [ToolValue] is the type of
    what is stored there. *)
Record Request (ToolValue : Type) : Type := {
  Tools : option (gmap string ToolValue);
  GenerateConfig : option GenerateContentConfig;
}.
Arguments Tools {ToolValue} r.
Arguments GenerateConfig {ToolValue} r.

(** The zero value [llm.Request{}]. *)
Definition zeroRequest {ToolValue} : Request ToolValue :=
  {| Tools := None; GenerateConfig := None |}.

(** The declarations a request presents to the model. *)
Definition declarations {ToolValue} (req : Request ToolValue) : list genaiTool :=
  match GenerateConfig req with
  | Some c => gc_Tools c
  | None => []
  end.
End Request.
Arguments Tools {_ ToolValue} r.
Arguments GenerateConfig {_ ToolValue} r.
Arguments Build_Request {_ ToolValue} _ _.

(** ** The function tool *)

(** [FunctionToolConfig] *)
Record FunctionToolConfig {lib : JSONSchema} : Type := {
  cfg_Name : string;
  cfg_Description : string;
  InputSchema : option Schema;
  OutputSchema : option Schema;
}.

Section FunctionTool.
Context {lib : JSONSchema}.
Context {ToolContext TArgs TResults : Type}.

(** [Function[TArgs, TResults]] *)
Definition Function : Type := ToolContext -> TArgs -> TResults.

(** [functionTool[TArgs, TResults]] *)
Record functionTool : Type := {
  cfg : FunctionToolConfig;
  inputSchema : option Resolved;
  outputSchema : option Resolved;
  handler : Function;
}.

Definition Description (f : functionTool) : string := cfg_Description (cfg f).

Definition Name (f : functionTool) : string := cfg_Name (cfg f).

(** What the tool map of a request holds: this kind of tool, or any
    other value. *)
Inductive ToolValue : Type :=
  | FnTool (f : functionTool)
  | Foreign (v : GoAny).

(** [Declaration] always returns a pointer to a freshly built
    declaration. *)
Definition Declaration (f : functionTool) : option FunctionDeclaration :=
  let decl := {| fd_Name := Name f;
                 fd_Description := Description f;
                 ParametersJsonSchema := None;
                 ResponseJsonSchema := None |} in
  let decl :=
    match inputSchema f with
    | Some r => {| fd_Name := fd_Name decl;
                   fd_Description := fd_Description decl;
                   ParametersJsonSchema := Some (Resolved_Schema r);
                   ResponseJsonSchema := ResponseJsonSchema decl |}
    | None => decl
    end in
  let decl :=
    match outputSchema f with
    | Some r => {| fd_Name := fd_Name decl;
                   fd_Description := fd_Description decl;
                   ParametersJsonSchema := ParametersJsonSchema decl;
                   ResponseJsonSchema := Some (Resolved_Schema r) |}
    | None => decl
    end in
  Some decl.

(** [ProcessRequest] mutates [*req]; the embedding returns the request
    as the call leaves it, next to the returned error. *)
Definition ProcessRequest (f : functionTool) (req : Request ToolValue)
  : outcome (Request ToolValue * option error) :=
  let req :=
    match Tools req with
    | None => {| Tools := Some ∅; GenerateConfig := GenerateConfig req |}
    | Some _ => req
    end in
  let name := Name f in
  match map_index (Tools req) name with
  | Some _ => Done (req, Some (Errorf "duplicate tool: %q" (FmtQ name)))
  | None =>
      tools <-! map_assign (Tools req) name (FnTool f);
      let req := {| Tools := tools; GenerateConfig := GenerateConfig req |} in
      let req :=
        match GenerateConfig req with
        | None => {| Tools := Tools req;
                     GenerateConfig := Some zeroGenerateContentConfig |}
        | Some _ => req
        end in
      match Declaration f with
      | Some decl =>
          c <-! deref (GenerateConfig req);
          let c := {| gc_Tools :=
                        gc_Tools c ++ [ {| FunctionDeclarations := [decl] |} ] |} in
          Done ({| Tools := Tools req; GenerateConfig := Some c |}, None)
      | None => Done (req, None)
      end
  end.

(** The calls [Run] makes out of the package. *)
Inductive Event : Type :=
  | EvConvertArgs (m : GoMap) (s : option Resolved)
  | EvHandler (ctx : ToolContext) (input : TArgs)
  | EvConvertResults (output : TResults) (s : option Resolved).

Context {convArgs : ConvertTo GoMap TArgs}.
Context {convResults : ConvertTo TResults GoMap}.

Definition Run (f : functionTool) (ctx : ToolContext) (args : GoAny)
  : Traced Event (GoAny * option error) :=
  let '(m, ok) := assertMap args in
  if negb ok then
    tret (AnyNil, Some (Errorf "unexpected args type, got: %T" (FmtT args)))
  else
    r <-$ call (EvConvertArgs m (inputSchema f))
               (ConvertToWithJSONSchema m (inputSchema f));
    let '(input, err) := r in
    match err with
    | Some e => tret (AnyNil, Some e)
    | None =>
        output <-$ call (EvHandler ctx input) (handler f ctx input);
        r <-$ call (EvConvertResults output (outputSchema f))
                   (ConvertToWithJSONSchema output (outputSchema f));
        let '(resp, err) := r in
        tret (AnyMap resp, err)
    end.

(** The inputs the handler was called with, in order. *)
Definition handlerCalls (t : list Event) : list TArgs :=
  omap (fun e => match e with EvHandler _ x => Some x | _ => None end) t.

(** The conversions that were attempted. *)
Definition isConversion (e : Event) : bool :=
  match e with
  | EvHandler _ _ => false
  | _ => true
  end.

Definition conversions (t : list Event) : list Event :=
  List.filter isConversion t.

Context {schemaArgs : TypeSchema TArgs} {schemaResults : TypeSchema TResults}.

(** [resolvedSchema[T]]: an override is resolved as it is; without one
    the schema is inferred from [T] and then resolved.  The pair [Resolve]
    returns is passed on unchanged. *)
Definition resolvedSchema (T : Type) {d : TypeSchema T} (override : option Schema)
  : option Resolved * option error :=
  match override with
  | Some s => Schema_Resolve (Some s)
  | None =>
      let '(schema, err) := For T in
      match err with
      | Some e => (None, Some e)
      | None => Schema_Resolve schema
      end
  end.

(** [NewFunctionTool]; its result of interface type [Tool] is [None] for
    the nil interface. *)
Definition NewFunctionTool (c : FunctionToolConfig) (h : Function)
  : option functionTool * option error :=
  let '(ischema, err) := resolvedSchema TArgs (InputSchema c) in
  match err with
  | Some e => (None, Some (Errorf "failed to infer input schema: %w" (FmtW e)))
  | None =>
      let '(oschema, err) := resolvedSchema TResults (OutputSchema c) in
      match err with
      | Some e => (None, Some (Errorf "failed to infer output schema: %w" (FmtW e)))
      | None =>
          (Some {| cfg := c; inputSchema := ischema;
                   outputSchema := oschema; handler := h |}, None)
      end
  end.
End FunctionTool.
Arguments Function : clear implicits.
Arguments functionTool {_} ToolContext TArgs TResults.
Arguments ToolValue {_} ToolContext TArgs TResults.
Arguments Event {_} ToolContext TArgs TResults.

(** ** The conversion helper, as the specification describes it *)

Section SpecConversion.
Context {lib : JSONSchema}.
Context {TArgs TResults : Type}.

(** The schema library's validation of a bag against a resolved schema,
    a black box; [None] means that the bag validates. *)
Variable Validate : option Resolved -> GoMap -> option error.
(** The zero value of the handler's input type. *)
Variable zeroArgs : TArgs.
(** The structural mapping of a bag onto the input type, and of a value
    of the output type onto a bag; both can fail. *)
Variable mapFields : GoMap -> TArgs + error.
Variable unmapFields : TResults -> GoMap + error.

(** Modelled from the spec: [typeutil.ConvertToWithJSONSchema] at
    [map[string]any] and [TArgs]; package [internal/typeutil] is not among
    the sources of the embedding.  The
    specification (section 4.4, step 2) has it validate the bag against
    the schema and then map the validated fields onto the input type;
    either stage may fail, and a failure yields no value. *)
Definition specConvertArgs : ConvertTo GoMap TArgs :=
  {| ConvertToWithJSONSchema m s :=
       match Validate s m with
       | Some e => (zeroArgs, Some e)
       | None =>
           match mapFields m with
           | inl x => (x, None)
           | inr e => (zeroArgs, Some e)
           end
       end |}.

(** Modelled from the spec: [typeutil.ConvertToWithJSONSchema] at
    [TResults] and [map[string]any]; package [internal/typeutil] is not
    among the sources of the embedding.  The
    specification (section 4.4, steps 4 and 5) has it unmap the typed
    output into a bag and validate the bag against the schema; a failure
    yields no result bag. *)
Definition specConvertResults : ConvertTo TResults GoMap :=
  {| ConvertToWithJSONSchema o s :=
       match unmapFields o with
       | inr e => (None, Some e)
       | inl b =>
           match Validate s b with
           | Some e => (None, Some e)
           | None => (b, None)
           end
       end |}.
End SpecConversion.

(** The contract Go functions follow when they return [(T, error)] with
    [T] a pointer or a map: nothing comes with an error. *)
Definition nilOnError {A B} (f : A -> option B * option error) : Prop :=
  forall a r e, f a = (r, Some e) -> r = None.

(** A result of [Run] that carries no bag: the nil interface, or a nil
    map. *)
Definition noResult (r : GoAny) : Prop :=
  r = AnyNil \/ r = AnyMap None.

(** ** A concrete tool: [add]

    The scenario of the specification: input [{a: int, b: int}], output
    [{sum: int}], the handler returns [{sum: a+b}].  The schema library is
    instantiated with a small schema language that is enough to run it. *)

Module Add.

Inductive schema : Type :=
  | Anything                             (* the schema that accepts every bag *)
  | IntFields (required : list string)   (* an object with these integer fields *)
  | Malformed.                           (* a raw schema that does not resolve *)

Definition resolve (s : option schema) : option schema * option error :=
  match s with
  | Some Malformed => (None, Some (LibError "schema does not resolve"))
  | Some s => (Some s, None)
  | None => (None, Some (LibError "nil schema"))
  end.

#[global] Instance lib : JSONSchema :=
  {| Schema := schema; Resolved := schema;
     Schema_Resolve := resolve; Resolved_Schema r := r |}.

Record Args : Type := { a : Z; b : Z }.
Record Results : Type := { sum : Z }.

(** A handler type whose shape the library cannot infer a schema from. *)
Inductive Chan : Type := chan.

#[global] Instance Args_schema : TypeSchema Args :=
  {| For := (Some (IntFields ["a"; "b"]), None) |}.
#[global] Instance Results_schema : TypeSchema Results :=
  {| For := (Some (IntFields ["sum"]), None) |}.
#[global] Instance Chan_schema : TypeSchema Chan :=
  {| For := (None, Some (LibError "unsupported type")) |}.

Definition isInt (v : option GoAny) : bool :=
  match v with
  | Some (AnyInt _) => true
  | _ => false
  end.

Definition validate (s : option schema) (m : GoMap) : option error :=
  match s with
  | None | Some Anything => None
  | Some Malformed => Some (LibError "schema does not resolve")
  | Some (IntFields required) =>
      if forallb (fun k => isInt (map_index m k)) required then None
      else Some (LibError "validation failed")
  end.

Definition zeroArgs : Args := {| a := 0; b := 0 |}.

Definition mapFields (m : GoMap) : Args + error :=
  match map_index m "a", map_index m "b" with
  | Some (AnyInt x), Some (AnyInt y) => inl {| a := x; b := y |}
  | _, _ => inr (LibError "cannot unmarshal into Args")
  end.

Definition unmapFields (r : Results) : GoMap + error :=
  inl (Some {[ "sum" := AnyInt (sum r) ]}).

#[global] Instance convArgs : ConvertTo GoMap Args :=
  specConvertArgs validate zeroArgs mapFields.
#[global] Instance convResults : ConvertTo Results GoMap :=
  specConvertResults validate unmapFields.

Definition add : Function unit Args Results :=
  fun _ x => {| sum := a x + b x |}.

Definition config : FunctionToolConfig :=
  {| cfg_Name := "add"; cfg_Description := "adds two integers";
     InputSchema := None; OutputSchema := None |}.

(** The tool [NewFunctionTool config add] builds. *)
Definition tool : functionTool unit Args Results :=
  {| cfg := config;
     inputSchema := Some (IntFields ["a"; "b"]);
     outputSchema := Some (IntFields ["sum"]);
     handler := add |}.

(** The same handler behind an explicit input schema that accepts every
    bag. *)
Definition looseConfig : FunctionToolConfig :=
  {| cfg_Name := "add"; cfg_Description := "adds two integers";
     InputSchema := Some Anything; OutputSchema := None |}.

Definition looseTool : functionTool unit Args Results :=
  {| cfg := looseConfig;
     inputSchema := Some Anything;
     outputSchema := Some (IntFields ["sum"]);
     handler := add |}.

(** The same handler behind an explicit output schema that asks for a
    field the handler's output does not have. *)
Definition strictTool : functionTool unit Args Results :=
  {| cfg := {| cfg_Name := "add"; cfg_Description := "adds two integers";
               InputSchema := None;
               OutputSchema := Some (IntFields ["total"]) |};
     inputSchema := Some (IntFields ["a"; "b"]);
     outputSchema := Some (IntFields ["total"]);
     handler := add |}.

(** Configurations whose explicit schema does not resolve. *)
Definition brokenInput : FunctionToolConfig :=
  {| cfg_Name := "add"; cfg_Description := "adds two integers";
     InputSchema := Some Malformed; OutputSchema := None |}.
Definition brokenOutput : FunctionToolConfig :=
  {| cfg_Name := "add"; cfg_Description := "adds two integers";
     InputSchema := None; OutputSchema := Some Malformed |}.

Definition goodBag : GoMap := Some (<["a" := AnyInt 2]> (<["b" := AnyInt 3]> ∅)).
Definition badBag : GoMap := Some (<["a" := AnyString "x"]> (<["b" := AnyInt 3]> ∅)).

(** A request in which a tool named [add] is registered already. *)
Definition taken : Request (ToolValue unit Args Results) :=
  {| Tools := Some {[ "add" := FnTool tool ]};
     GenerateConfig :=
       Some {| gc_Tools := [ {| FunctionDeclarations :=
                                  match Declaration tool with
                                  | Some d => [d]
                                  | None => []
                                  end |} ] |} |}.
End Add.

(** ** A second tool: [sub]

    A tool of the same input and output types under another name, to
    register next to [add]. *)

Module Sub.

Definition sub : Function unit Add.Args Add.Results :=
  fun _ x => {| Add.sum := Add.a x - Add.b x |}.

Definition config : FunctionToolConfig :=
  {| cfg_Name := "sub"; cfg_Description := "subtracts two integers";
     InputSchema := None; OutputSchema := None |}.

(** The tool [NewFunctionTool config sub] builds. *)
Definition tool : functionTool unit Add.Args Add.Results :=
  {| cfg := config;
     inputSchema := Some (Add.IntFields ["a"; "b"]);
     outputSchema := Some (Add.IntFields ["sum"]);
     handler := sub |}.
End Sub.

(** ** Requests that hold tools of every type

    The tool map of [llm.Request] has type [map[string]any]: one request
    holds function tools of different handler types next to each other. *)

Section RequestOfAny.
Context {lib : JSONSchema}.
Context {ToolContext TArgs TResults : Type}.
Context {V : Type}.

(** [ProcessRequest] with the tool map at its declared type: [V] stands
    for [any], and [toAny] for the conversion of this tool type to [any]
    in the assignment [req.Tools[name] = f].  [ProcessRequest] above is
    the instance of it at [ToolValue] and [FnTool]. *)
Definition ProcessRequestAny
    (toAny : functionTool ToolContext TArgs TResults -> V)
    (f : functionTool ToolContext TArgs TResults) (req : Request V)
  : outcome (Request V * option error) :=
  let req :=
    match Tools req with
    | None => {| Tools := Some ∅; GenerateConfig := GenerateConfig req |}
    | Some _ => req
    end in
  let name := Name f in
  match map_index (Tools req) name with
  | Some _ => Done (req, Some (Errorf "duplicate tool: %q" (FmtQ name)))
  | None =>
      tools <-! map_assign (Tools req) name (toAny f);
      let req := {| Tools := tools; GenerateConfig := GenerateConfig req |} in
      let req :=
        match GenerateConfig req with
        | None => {| Tools := Tools req;
                     GenerateConfig := Some zeroGenerateContentConfig |}
        | Some _ => req
        end in
      match Declaration f with
      | Some decl =>
          c <-! deref (GenerateConfig req);
          let c := {| gc_Tools :=
                        gc_Tools c ++ [ {| FunctionDeclarations := [decl] |} ] |} in
          Done ({| Tools := Tools req; GenerateConfig := Some c |}, None)
      | None => Done (req, None)
      end
  end.
End RequestOfAny.

(** What a [map[string]any] of tools holds: a function tool of any
    instantiation of [functionTool], or another value. *)
Inductive ToolAny {lib : JSONSchema} : Type :=
  | AnyTool {ToolContext TArgs TResults : Type}
      (f : functionTool ToolContext TArgs TResults)
  | AnyOther (v : GoAny).

(** ** A tool of other handler types: [iszero]

    Its input is an integer and its output a boolean, so that it is not an
    instance of the tool type of [add]. *)

Module IsZero.

Definition iszero : Function unit Z bool :=
  fun _ n => Z.eqb n 0.

Definition config : FunctionToolConfig :=
  {| cfg_Name := "iszero"; cfg_Description := "tests an integer for zero";
     InputSchema := Some (Add.IntFields ["n"]);
     OutputSchema := Some Add.Anything |}.

Definition tool : functionTool unit Z bool :=
  {| cfg := config;
     inputSchema := Some (Add.IntFields ["n"]);
     outputSchema := Some Add.Anything;
     handler := iszero |}.
End IsZero.

(* ===================================================================== *)
(** * Part II: properties *)
(* ===================================================================== *)

(** ** Registration: [ProcessRequest] and [Declaration] *)

Section Registration.
Context {lib : JSONSchema}.
Context {ToolContext TArgs TResults : Type}.
Implicit Types f : functionTool ToolContext TArgs TResults.
Implicit Types req : Request (ToolValue ToolContext TArgs TResults).

(** The declaration is never nil: it carries the name and the
    description, and each schema exactly when the tool has it. *)
Lemma Declaration_eq f :
  Declaration f =
    Some {| fd_Name := Name f;
            fd_Description := Description f;
            ParametersJsonSchema := Resolved_Schema <$> inputSchema f;
            ResponseJsonSchema := Resolved_Schema <$> outputSchema f |}.
Proof.
  unfold Declaration.
  destruct (inputSchema f), (outputSchema f); reflexivity.
Qed.

(** Once the nil map is replaced, a name is found in the request's tool
    map exactly when it was found before. *)
Lemma map_index_made (g : option (gmap string (ToolValue ToolContext TArgs TResults))) k :
  map_index (match g with None => Some ∅ | Some _ => g end) k = map_index g k.
Proof. destruct g; simpl; [reflexivity | apply lookup_empty]. Qed.

(** Registration of a fresh name: the tool is stored under its name and
    one declaration-set entry is appended. *)
Lemma ProcessRequest_fresh f req d :
  map_index (Tools req) (Name f) = None ->
  Declaration f = Some d ->
  ProcessRequest f req =
    Done ({| Tools := Some (<[Name f := FnTool f]> (default ∅ (Tools req)));
             GenerateConfig :=
               Some {| gc_Tools := declarations req
                                     ++ [ {| FunctionDeclarations := [d] |} ] |} |},
          None).
Proof.
  intros Hfresh Hd. unfold ProcessRequest, declarations.
  destruct req as [[g|] c]; cbn [Tools GenerateConfig map_index] in *.
  - rewrite Hfresh. cbn [map_assign outcome_bind Tools GenerateConfig].
    rewrite Hd. destruct c as [c|]; reflexivity.
  - rewrite lookup_empty. cbn [map_assign outcome_bind Tools GenerateConfig].
    rewrite Hd. destruct c as [c|]; reflexivity.
Qed.

(** Registration never faults, whatever the request holds. *)
Lemma ProcessRequest_no_panic f req :
  exists r, ProcessRequest f req = Done r.
Proof.
  destruct (map_index (Tools req) (Name f)) as [t|] eqn:Hi.
  - unfold ProcessRequest.
    destruct req as [[g|] c]; simpl in *; [|discriminate].
    rewrite Hi. eauto.
  - destruct (Declaration f) as [d|] eqn:Hd.
    + rewrite (ProcessRequest_fresh f req d Hi Hd). eauto.
    + rewrite Declaration_eq in Hd. discriminate.
Qed.

(** C1: when a tool of the same name is registered already,
    [ProcessRequest] returns the error [duplicate tool: <name>] and leaves
    the request as it found it: the same tool map, the same declaration
    list, nothing appended. *)
Theorem ProcessRequest_duplicate f req t :
  map_index (Tools req) (Name f) = Some t ->
  exists req',
    ProcessRequest f req =
      Done (req', Some (Errorf "duplicate tool: %q" (FmtQ (Name f))))
    /\ req' = req
    /\ Tools req' = Tools req
    /\ declarations req' = declarations req.
Proof.
  intros Hdup. exists req. split; [|auto].
  unfold ProcessRequest.
  destruct req as [[g|] c]; simpl in *; [|discriminate].
  rewrite Hdup. reflexivity.
Qed.

(** C10: registration into the zero-valued request, whose tool map and
    generation config are both nil, completes without a fault and without
    an error: the tool map is created and holds the tool under its name,
    the generation config is created and holds the one declaration. *)
Theorem ProcessRequest_zeroRequest f :
  exists d,
    Declaration f = Some d
    /\ ProcessRequest f zeroRequest =
         Done ({| Tools := Some {[ Name f := FnTool f ]};
                  GenerateConfig :=
                    Some {| gc_Tools := [ {| FunctionDeclarations := [d] |} ] |} |},
               None).
Proof.
  eexists. split; [apply Declaration_eq|].
  rewrite (ProcessRequest_fresh f zeroRequest _ eq_refl (Declaration_eq f)).
  simpl. rewrite insert_empty. reflexivity.
Qed.

End Registration.

(** C1, at the request that holds [add] already. *)
Lemma ProcessRequest_duplicate_witness :
  map_index (Tools Add.taken) (Name Add.tool) = Some (FnTool Add.tool)
  /\ exists req',
       ProcessRequest Add.tool Add.taken =
         Done (req', Some (Errorf "duplicate tool: %q" (FmtQ (Name Add.tool))))
       /\ req' = Add.taken
       /\ Tools req' = Tools Add.taken
       /\ declarations req' = declarations Add.taken.
Proof.
  split; [reflexivity|].
  apply (ProcessRequest_duplicate Add.tool Add.taken (FnTool Add.tool)).
  reflexivity.
Defined.

(** ** Invocation: [Run] *)

Section Invocation.
Context {lib : JSONSchema}.
Context {ToolContext TArgs TResults : Type}.
Context {convArgs : ConvertTo GoMap TArgs}.
Context {convResults : ConvertTo TResults GoMap}.
Implicit Types f : functionTool ToolContext TArgs TResults.

(** The three ways through [Run]. *)
Lemma Run_not_map f ctx args :
  (forall m, args <> AnyMap m) ->
  Run f ctx args =
    ((AnyNil, Some (Errorf "unexpected args type, got: %T" (FmtT args))), []).
Proof.
  intros Hshape. unfold Run.
  destruct args; try reflexivity.
  exfalso. eapply Hshape. reflexivity.
Qed.

Lemma Run_conversion_failed f ctx m x e :
  ConvertToWithJSONSchema m (inputSchema f) = (x, Some e) ->
  Run f ctx (AnyMap m) = ((AnyNil, Some e), [EvConvertArgs m (inputSchema f)]).
Proof.
  intros Hconv. unfold Run. cbn [assertMap negb].
  unfold tbind, call, tret. rewrite Hconv. reflexivity.
Qed.

Lemma Run_converted f ctx m x :
  ConvertToWithJSONSchema m (inputSchema f) = (x, None) ->
  let out := ConvertToWithJSONSchema (handler f ctx x) (outputSchema f) in
  Run f ctx (AnyMap m) =
    ((AnyMap (fst out), snd out),
     [EvConvertArgs m (inputSchema f);
      EvHandler ctx x;
      EvConvertResults (handler f ctx x) (outputSchema f)]).
Proof.
  intros Hconv out. unfold Run. cbn [assertMap negb].
  unfold tbind, call, tret. rewrite Hconv. subst out.
  destruct (ConvertToWithJSONSchema (handler f ctx x) (outputSchema f)).
  reflexivity.
Qed.

(** C6: when the argument is not a [map[string]any], [Run] returns the
    error [unexpected args type] at once: the trace of outgoing calls is
    empty, so no conversion was attempted and the handler was not
    called. *)
Theorem Run_rejects_non_map f ctx args :
  (forall m, args <> AnyMap m) ->
  exists tr,
    Run f ctx args =
      ((AnyNil, Some (Errorf "unexpected args type, got: %T" (FmtT args))), tr)
    /\ tr = []
    /\ conversions tr = []
    /\ handlerCalls tr = [].
Proof.
  intros Hshape. exists []. split; [|auto].
  apply Run_not_map, Hshape.
Qed.

(** C3: when the conversion of a string-keyed bag to the typed input
    reports an error, [Run] returns that error with a nil result, and the
    handler is not called: the only outgoing call is the conversion. *)
Theorem Run_input_conversion_error f ctx m x e :
  ConvertToWithJSONSchema m (inputSchema f) = (x, Some e) ->
  exists tr,
    Run f ctx (AnyMap m) = ((AnyNil, Some e), tr)
    /\ tr = [EvConvertArgs m (inputSchema f)]
    /\ handlerCalls tr = [].
Proof.
  intros Hconv. eexists. split; [apply (Run_conversion_failed f ctx m x e Hconv)|].
  split; reflexivity.
Qed.

(** Whatever the helper returns, an error of [Run] comes with the nil
    interface, unless it is the error of the output conversion: then it
    comes with what the helper returned. *)
Lemma Run_error_result f ctx args r e tr :
  Run f ctx args = ((r, Some e), tr) ->
  r = AnyNil
  \/ exists x resp,
       ConvertToWithJSONSchema x (outputSchema f) = (resp, Some e)
       /\ r = AnyMap resp.
Proof.
  intros Hrun.
  destruct args; try (rewrite Run_not_map in Hrun by discriminate;
                      injection Hrun as <- _ _; left; reflexivity).
  destruct (ConvertToWithJSONSchema m (inputSchema f)) as [x [e'|]] eqn:Hconv.
  - rewrite (Run_conversion_failed f ctx m x e' Hconv) in Hrun.
    injection Hrun as <- _ _. left. reflexivity.
  - rewrite (Run_converted f ctx m x Hconv) in Hrun. cbv zeta in Hrun.
    destruct (ConvertToWithJSONSchema (handler f ctx x) (outputSchema f))
      as [resp err] eqn:Hout; cbn [fst snd] in Hrun.
    injection Hrun as <- -> _. right. eauto.
Qed.
End Invocation.

(** C6, at the argument ["not-a-map"] of the specification's scenario. *)
Lemma Run_rejects_non_map_witness :
  (forall m, AnyString "not-a-map" <> AnyMap m)
  /\ exists tr,
       Run Add.tool tt (AnyString "not-a-map") =
         ((AnyNil, Some (Errorf "unexpected args type, got: %T"
                                (FmtT (AnyString "not-a-map")))), tr)
       /\ tr = []
       /\ conversions tr = []
       /\ handlerCalls tr = [].
Proof.
  split; [discriminate|].
  apply (Run_rejects_non_map Add.tool tt (AnyString "not-a-map")).
  discriminate.
Defined.

(** C3, at the bag [{a: "x", b: 3}] of the specification's scenario. *)
Lemma Run_input_conversion_error_witness :
  ConvertToWithJSONSchema Add.badBag (inputSchema Add.tool)
    = (Add.zeroArgs, Some (LibError "validation failed"))
  /\ exists tr,
       Run Add.tool tt (AnyMap Add.badBag)
         = ((AnyNil, Some (LibError "validation failed")), tr)
       /\ tr = [EvConvertArgs Add.badBag (inputSchema Add.tool)]
       /\ handlerCalls tr = [].
Proof.
  split; [reflexivity|].
  apply (Run_input_conversion_error Add.tool tt Add.badBag Add.zeroArgs).
  reflexivity.
Defined.

(** ** Invocation through the conversion helper of the specification *)

Section SpecInvocation.
Context {lib : JSONSchema}.
Context {ToolContext TArgs TResults : Type}.
Variable Validate : option Resolved -> GoMap -> option error.
Variable zeroArgs : TArgs.
Variable mapFields : GoMap -> TArgs + error.
Variable unmapFields : TResults -> GoMap + error.
Implicit Types f : functionTool ToolContext TArgs TResults.

Local Abbreviation toArgs := (specConvertArgs Validate zeroArgs mapFields).
Local Abbreviation toBag := (specConvertResults Validate unmapFields).
Local Abbreviation RunSpec := (Run (convArgs := toArgs) (convResults := toBag)).

(** The input conversion succeeds exactly when the bag validates and
    maps onto the input type. *)
Lemma specConvertArgs_ok m s x :
  ConvertToWithJSONSchema (ConvertTo := toArgs) m s = (x, None)
  <-> Validate s m = None /\ mapFields m = inl x.
Proof.
  cbn [ConvertToWithJSONSchema specConvertArgs].
  destruct (Validate s m) as [e|]; [split; [discriminate | intros [? _]; discriminate]|].
  destruct (mapFields m) as [y|e]; split.
  - intros [= ->]. auto.
  - intros [_ [= ->]]. reflexivity.
  - discriminate.
  - intros [_ ?]. discriminate.
Qed.

(** A bag the output conversion returns without error validates. *)
Lemma specConvertResults_ok o s resp :
  ConvertToWithJSONSchema (ConvertTo := toBag) o s = (resp, None) ->
  unmapFields o = inl resp /\ Validate s resp = None.
Proof.
  cbn [ConvertToWithJSONSchema specConvertResults].
  destruct (unmapFields o) as [b|e]; [|discriminate].
  destruct (Validate s b) as [e|] eqn:Hv; [discriminate|].
  intros [= <-]. auto.
Qed.

(** Nothing comes with an error of the output conversion. *)
Lemma specConvertResults_nilOnError s :
  nilOnError (fun o => ConvertToWithJSONSchema (ConvertTo := toBag) o s).
Proof.
  intros o r e. cbn [ConvertToWithJSONSchema specConvertResults].
  destruct (unmapFields o) as [b|e']; [|intros [= <- _]; reflexivity].
  destruct (Validate s b) as [e'|]; [intros [= <- _]; reflexivity | discriminate].
Qed.

(** C2 (amended): when the bag validates against the input schema and
    maps onto the handler's input type, [Run] calls the handler exactly
    once, with the mapped input, and returns what the conversion of the
    handler's output under the output schema returns; when that
    conversion reports no error, the result is the unmapped output and
    validates against the output schema. *)
Theorem Run_valid_input f ctx m x :
  Validate (inputSchema f) m = None ->
  mapFields m = inl x ->
  exists r err tr,
    RunSpec f ctx (AnyMap m) = ((r, err), tr)
    /\ handlerCalls tr = [x]
    /\ (let out := ConvertToWithJSONSchema (ConvertTo := toBag)
                     (handler f ctx x) (outputSchema f) in
        r = AnyMap (fst out) /\ err = snd out)
    /\ (err = None ->
        exists b, r = AnyMap b
                  /\ unmapFields (handler f ctx x) = inl b
                  /\ Validate (outputSchema f) b = None).
Proof.
  intros Hvalid Hmap.
  assert (Hconv : ConvertToWithJSONSchema (ConvertTo := toArgs) m (inputSchema f)
                  = (x, None)) by (apply specConvertArgs_ok; auto).
  pose proof (Run_converted (convArgs := toArgs) (convResults := toBag)
                f ctx m x Hconv) as Hrun.
  cbv zeta in Hrun.
  destruct (ConvertToWithJSONSchema (ConvertTo := toBag)
              (handler f ctx x) (outputSchema f)) as [resp err] eqn:Hout.
  cbn [fst snd] in Hrun.
  eexists (AnyMap resp), err, _. split; [exact Hrun|].
  split; [reflexivity|]. split; [cbn [fst snd]; auto|].
  intros ->. exists resp. split; [reflexivity|].
  apply (specConvertResults_ok _ _ _ Hout).
Qed.

(** C5: whenever [Run] returns an error, it returns no result bag: the
    result is the nil interface, or, for an error of the output
    conversion, the nil map. *)
Theorem Run_no_result_on_error f ctx args r e tr :
  RunSpec f ctx args = ((r, Some e), tr) ->
  noResult r.
Proof.
  intros Hrun.
  destruct (Run_error_result (convArgs := toArgs) (convResults := toBag)
              f ctx args r e tr Hrun) as [-> | (o & resp & Hout & ->)].
  - left. reflexivity.
  - right. f_equal.
    apply (specConvertResults_nilOnError (outputSchema f) o resp e Hout).
Qed.
End SpecInvocation.

(** C2, as stated, fails at [Add.looseTool] and the bag [{a: "x", b: 3}]:
    the bag validates against the tool's input schema, which accepts every
    bag, but does not map onto [{a: int, b: int}]; [Run] returns the error
    of the mapping and the handler is not called. *)
Lemma Run_valid_input_counterexample :
  Add.validate (inputSchema Add.looseTool) Add.badBag = None
  /\ Run Add.looseTool tt (AnyMap Add.badBag)
       = ((AnyNil, Some (LibError "cannot unmarshal into Args")),
          [EvConvertArgs Add.badBag (inputSchema Add.looseTool)])
  /\ handlerCalls (snd (Run Add.looseTool tt (AnyMap Add.badBag))) = [].
Proof. repeat split. Qed.

(** C2 (amended), at the scenario [add({a: 2, b: 3}) = {sum: 5}]. *)
Lemma Run_valid_input_witness :
  Add.validate (inputSchema Add.tool) Add.goodBag = None
  /\ Add.mapFields Add.goodBag = inl {| Add.a := 2; Add.b := 3 |}
  /\ exists r err tr,
       Run Add.tool tt (AnyMap Add.goodBag) = ((r, err), tr)
       /\ handlerCalls tr = [ {| Add.a := 2; Add.b := 3 |} ]
       /\ (let out := ConvertToWithJSONSchema
                        (handler Add.tool tt {| Add.a := 2; Add.b := 3 |})
                        (outputSchema Add.tool) in
           r = AnyMap (fst out) /\ err = snd out)
       /\ (err = None ->
           exists b, r = AnyMap b
                     /\ Add.unmapFields (handler Add.tool tt {| Add.a := 2; Add.b := 3 |})
                        = inl b
                     /\ Add.validate (outputSchema Add.tool) b = None).
Proof.
  split; [reflexivity|]. split; [reflexivity|].
  apply (Run_valid_input (lib := Add.lib) Add.validate Add.zeroArgs Add.mapFields Add.unmapFields
           Add.tool tt Add.goodBag {| Add.a := 2; Add.b := 3 |});
    reflexivity.
Defined.

(** C5, at [Add.strictTool], whose output fails validation: the error
    comes with the nil map. *)
Lemma Run_no_result_on_error_witness :
  Run Add.strictTool tt (AnyMap Add.goodBag)
    = ((AnyMap None, Some (LibError "validation failed")),
       [EvConvertArgs Add.goodBag (inputSchema Add.strictTool);
        EvHandler tt {| Add.a := 2; Add.b := 3 |};
        EvConvertResults {| Add.sum := 5 |} (outputSchema Add.strictTool)])
  /\ noResult (AnyMap None).
Proof.
  split; [reflexivity|].
  apply (Run_no_result_on_error (lib := Add.lib) Add.validate Add.zeroArgs Add.mapFields
           Add.unmapFields Add.strictTool tt (AnyMap Add.goodBag)
           (AnyMap None) (LibError "validation failed")
           [EvConvertArgs Add.goodBag (inputSchema Add.strictTool);
            EvHandler tt {| Add.a := 2; Add.b := 3 |};
            EvConvertResults {| Add.sum := 5 |} (outputSchema Add.strictTool)]).
  reflexivity.
Defined.

(** ** Construction: [resolvedSchema] and [NewFunctionTool] *)

Section Construction.
Context {lib : JSONSchema}.
Context {ToolContext TArgs TResults : Type}.
Context {schemaArgs : TypeSchema TArgs} {schemaResults : TypeSchema TResults}.

Lemma Unwrap_Errorf format e : Unwrap (Errorf format (FmtW e)) = Some e.
Proof. reflexivity. Qed.

(** An override is resolved as it is, whatever the type. *)
Lemma resolvedSchema_override (T : Type) {d : TypeSchema T} s :
  resolvedSchema T (Some s) = Schema_Resolve (Some s).
Proof. reflexivity. Qed.

(** C7: with an explicit schema, [resolvedSchema] returns what resolving
    that schema returns, the same for every type and every type
    descriptor; without one, it infers a schema from the type and returns
    what resolving the inferred schema returns, or the error of the
    inference with no resolved schema; and, [Resolve] returning nothing
    with an error, every error of [resolvedSchema] comes with no resolved
    schema. *)
Theorem resolvedSchema_paths (T : Type) {d : TypeSchema T} (override : option Schema) :
  (forall s, override = Some s ->
     resolvedSchema T override = Schema_Resolve (Some s)
     /\ forall (T' : Type) (d' : TypeSchema T'),
          resolvedSchema T' override = resolvedSchema T override)
  /\ (override = None ->
      forall schema, For T = (schema, None) ->
        resolvedSchema T override = Schema_Resolve schema)
  /\ (override = None ->
      forall schema e, For T = (schema, Some e) ->
        resolvedSchema T override = (None, Some e))
  /\ (nilOnError Schema_Resolve ->
      forall r e, resolvedSchema T override = (r, Some e) -> r = None).
Proof.
  split; [|split; [|split]].
  - intros s ->. split; [reflexivity|]. intros T' d'. reflexivity.
  - intros -> schema Hfor. unfold resolvedSchema. rewrite Hfor. reflexivity.
  - intros -> schema e Hfor. unfold resolvedSchema. rewrite Hfor. reflexivity.
  - intros Hnil r e. unfold resolvedSchema.
    destruct override as [s|].
    + apply Hnil.
    + destruct (For T) as [schema [e'|]].
      * intros [= <- _]. reflexivity.
      * apply Hnil.
Qed.

(** C8: when the input schema fails to resolve, [NewFunctionTool]
    returns no tool and an error that wraps the schema error and names
    the input side; when the input schema resolves and the output schema
    fails to, no tool and an error that wraps the schema error and names
    the output side; when both resolve, the tool built from the
    configuration, the two resolved schemas and the handler, and no
    error. *)
Theorem NewFunctionTool_results (c : FunctionToolConfig)
    (h : Function ToolContext TArgs TResults) :
  (forall r e,
     resolvedSchema TArgs (InputSchema c) = (r, Some e) ->
     NewFunctionTool c h
       = (None, Some (Errorf "failed to infer input schema: %w" (FmtW e)))
     /\ Unwrap (Errorf "failed to infer input schema: %w" (FmtW e)) = Some e)
  /\ (forall ri ro e,
        resolvedSchema TArgs (InputSchema c) = (ri, None) ->
        resolvedSchema TResults (OutputSchema c) = (ro, Some e) ->
        NewFunctionTool c h
          = (None, Some (Errorf "failed to infer output schema: %w" (FmtW e)))
        /\ Unwrap (Errorf "failed to infer output schema: %w" (FmtW e)) = Some e)
  /\ (forall ri ro,
        resolvedSchema TArgs (InputSchema c) = (ri, None) ->
        resolvedSchema TResults (OutputSchema c) = (ro, None) ->
        NewFunctionTool c h
          = (Some {| cfg := c; inputSchema := ri; outputSchema := ro;
                     handler := h |}, None)).
Proof.
  unfold NewFunctionTool. split; [|split].
  - intros r e Hin. rewrite Hin. split; reflexivity.
  - intros ri ro e Hin Hout. rewrite Hin, Hout. split; reflexivity.
  - intros ri ro Hin Hout. rewrite Hin, Hout. reflexivity.
Qed.
End Construction.

(** C7, at the types and schemas of [Add]: an explicit schema, the same
    explicit schema at a type with no inferable shape, an inferred schema,
    a failed inference, and an explicit schema that does not resolve. *)
Lemma resolvedSchema_paths_witness :
  resolvedSchema Add.Args (Some Add.Anything) = (Some Add.Anything, None)
  /\ resolvedSchema Add.Chan (Some Add.Anything)
     = resolvedSchema Add.Args (Some Add.Anything)
  /\ resolvedSchema Add.Args None = (Some (Add.IntFields ["a"; "b"]), None)
  /\ resolvedSchema Add.Chan None = (None, Some (LibError "unsupported type"))
  /\ (forall r e,
        resolvedSchema Add.Args (Some Add.Malformed) = (r, Some e) -> r = None).
Proof.
  destruct (resolvedSchema_paths (lib := Add.lib) Add.Args (Some Add.Anything))
    as (Hexplicit & _ & _ & _).
  destruct (Hexplicit Add.Anything eq_refl) as [Hsame Hany].
  destruct (resolvedSchema_paths (lib := Add.lib) Add.Args None)
    as (_ & Hinfer & _ & _).
  destruct (resolvedSchema_paths (lib := Add.lib) Add.Chan None)
    as (_ & _ & Hfail & _).
  destruct (resolvedSchema_paths (lib := Add.lib) Add.Args (Some Add.Malformed))
    as (_ & _ & _ & Hnil).
  split; [exact Hsame|].
  split; [exact (Hany Add.Chan Add.Chan_schema)|].
  split; [exact (Hinfer eq_refl _ eq_refl)|].
  split; [exact (Hfail eq_refl _ _ eq_refl)|].
  apply Hnil.
  intros [[| |]|] r e; simpl; congruence.
Defined.

(** C8, at three configurations of [add]: an input schema that does not
    resolve, an output schema that does not resolve, and inferred schemas
    on both sides. *)
Lemma NewFunctionTool_results_witness :
  NewFunctionTool Add.brokenInput Add.add
    = (None, Some (Errorf "failed to infer input schema: %w"
                          (FmtW (LibError "schema does not resolve"))))
  /\ NewFunctionTool Add.brokenOutput Add.add
     = (None, Some (Errorf "failed to infer output schema: %w"
                           (FmtW (LibError "schema does not resolve"))))
  /\ NewFunctionTool Add.config Add.add = (Some Add.tool, None).
Proof.
  destruct (NewFunctionTool_results (lib := Add.lib) Add.brokenInput Add.add)
    as (Hin & _ & _).
  destruct (NewFunctionTool_results (lib := Add.lib) Add.brokenOutput Add.add)
    as (_ & Hout & _).
  destruct (NewFunctionTool_results (lib := Add.lib) Add.config Add.add)
    as (_ & _ & Hok).
  split; [exact (proj1 (Hin None _ eq_refl))|].
  split; [exact (proj1 (Hout _ None _ eq_refl eq_refl))|].
  exact (Hok _ _ eq_refl eq_refl).
Defined.

(** ** The identity handler *)

Section Identity.
Context {lib : JSONSchema}.
Context {ToolContext T : Type}.
Context {convArgs : ConvertTo GoMap T}.
Context {convResults : ConvertTo T GoMap}.

(** When the handler returns its input, a bag that converts is answered
    with what the output conversion makes of the converted input. *)
Lemma Run_identity_handler (f : functionTool ToolContext T T) ctx m x :
  (forall c y, handler f c y = y) ->
  ConvertToWithJSONSchema m (inputSchema f) = (x, None) ->
  fst (Run f ctx (AnyMap m))
    = (AnyMap (fst (ConvertToWithJSONSchema x (outputSchema f))),
       snd (ConvertToWithJSONSchema x (outputSchema f))).
Proof.
  intros Hid Hconv.
  rewrite (Run_converted f ctx m x Hconv). cbv zeta. cbn [fst].
  rewrite Hid. reflexivity.
Qed.
End Identity.

(** ** The scenarios of the specification *)

(** [add({a: 2, b: 3})] is [{sum: 5}]. *)
Example add_2_3 :
  fst (Run Add.tool tt (AnyMap Add.goodBag))
    = (AnyMap (Some {[ "sum" := AnyInt 5 ]}), None).
Proof. reflexivity. Qed.

(** [add({a: "x", b: 3})] is a conversion error. *)
Example add_x_3 :
  fst (Run Add.tool tt (AnyMap Add.badBag))
    = (AnyNil, Some (LibError "validation failed")).
Proof. reflexivity. Qed.

(** The first registration of [add] into a fresh request succeeds; the
    second is refused, and the request keeps one tool and one
    declaration. *)
Example add_registered_twice :
  ProcessRequest Add.tool zeroRequest = Done (Add.taken, None)
  /\ ProcessRequest Add.tool Add.taken
     = Done (Add.taken, Some (Errorf "duplicate tool: %q" (FmtQ "add")))
  /\ length (declarations Add.taken) = 1
  /\ (size <$> Tools Add.taken) = Some 1.
Proof. repeat split. Qed.

(* ===================================================================== *)
(** * Part III: further properties of the package *)
(* ===================================================================== *)

(** ** Registration *)

Section RegistrationLaws.
Context {lib : JSONSchema}.
Context {ToolContext TArgs TResults : Type}.
Implicit Types f g : functionTool ToolContext TArgs TResults.
Implicit Types req : Request (ToolValue ToolContext TArgs TResults).

(** A name that is taken stops the registration at the check. *)
Lemma ProcessRequest_taken f req t :
  map_index (Tools req) (Name f) = Some t ->
  ProcessRequest f req
    = Done (req, Some (Errorf "duplicate tool: %q" (FmtQ (Name f)))).
Proof.
  intros Htaken. unfold ProcessRequest.
  destruct req as [[tools|] c]; cbn [Tools GenerateConfig map_index] in *.
  - rewrite Htaken. reflexivity.
  - discriminate.
Qed.

(** The tool map after a registration under a fresh name. *)
Lemma map_index_default (tools : option (gmap string (ToolValue ToolContext TArgs TResults))) k :
  default ∅ tools !! k = map_index tools k.
Proof. destruct tools; [reflexivity | apply lookup_empty]. Qed.

(** A registration that returns no error found the name free. *)
Lemma ProcessRequest_ok_fresh f req req' :
  ProcessRequest f req = Done (req', None) ->
  map_index (Tools req) (Name f) = None.
Proof.
  intros Hok.
  destruct (map_index (Tools req) (Name f)) as [t|] eqn:Hi; [|reflexivity].
  rewrite (ProcessRequest_taken f req t Hi) in Hok. discriminate.
Qed.

(** X1: [ProcessRequest] never faults, whatever is nil in the request,
    and it returns an error exactly when the tool's name is a key of the
    request's tool map. *)
Theorem ProcessRequest_error_iff_taken f req :
  exists req' err,
    ProcessRequest f req = Done (req', err)
    /\ (err = None <-> map_index (Tools req) (Name f) = None).
Proof.
  destruct (map_index (Tools req) (Name f)) as [t|] eqn:Hi.
  - rewrite (ProcessRequest_taken f req t Hi).
    eexists _, _. split; [reflexivity|]. split; discriminate.
  - rewrite (ProcessRequest_fresh f req _ Hi (Declaration_eq f)).
    eexists _, _. split; [reflexivity|]. split; reflexivity.
Qed.

(** X2: a registration under a fresh name stores the tool under its
    name, leaves every other key of the tool map as it was, and makes the
    map one entry larger. *)
Theorem ProcessRequest_stores f req :
  map_index (Tools req) (Name f) = None ->
  exists req',
    ProcessRequest f req = Done (req', None)
    /\ map_index (Tools req') (Name f) = Some (FnTool f)
    /\ (forall k, k <> Name f -> map_index (Tools req') k = map_index (Tools req) k)
    /\ (size <$> Tools req') = Some (S (size (default ∅ (Tools req)))).
Proof.
  intros Hfresh.
  rewrite (ProcessRequest_fresh f req _ Hfresh (Declaration_eq f)).
  eexists. split; [reflexivity|]. cbn [Tools map_index fmap option_fmap option_map].
  split; [apply lookup_insert_eq|]. split.
  - intros k Hk. rewrite lookup_insert_ne by congruence.
    apply map_index_default.
  - f_equal. apply map_size_insert_None.
    rewrite map_index_default. exact Hfresh.
Qed.

(** X3: a registration under a fresh name keeps the declarations the
    request holds and appends one declaration-set entry after them; the
    entry holds one declaration, with the tool's name and description and
    the raw form of each schema the tool has. *)
Theorem ProcessRequest_appends f req :
  map_index (Tools req) (Name f) = None ->
  exists req' d,
    ProcessRequest f req = Done (req', None)
    /\ declarations req' = declarations req ++ [ {| FunctionDeclarations := [d] |} ]
    /\ fd_Name d = Name f
    /\ fd_Description d = Description f
    /\ ParametersJsonSchema d = Resolved_Schema <$> inputSchema f
    /\ ResponseJsonSchema d = Resolved_Schema <$> outputSchema f.
Proof.
  intros Hfresh.
  rewrite (ProcessRequest_fresh f req _ Hfresh (Declaration_eq f)).
  eexists _, _. split; [reflexivity|]. repeat split.
Qed.

(** X4: when [ProcessRequest] returns, the request's tool map is
    allocated, with or without an error; when it returns no error, so is
    the generation config. *)
Theorem ProcessRequest_allocates f req :
  exists req' err,
    ProcessRequest f req = Done (req', err)
    /\ Tools req' <> None
    /\ (err = None -> GenerateConfig req' <> None).
Proof.
  destruct (map_index (Tools req) (Name f)) as [t|] eqn:Hi.
  - rewrite (ProcessRequest_taken f req t Hi).
    eexists _, _. split; [reflexivity|]. split; [|discriminate].
    destruct (Tools req); [discriminate | discriminate Hi].
  - rewrite (ProcessRequest_fresh f req _ Hi (Declaration_eq f)).
    eexists _, _. split; [reflexivity|]. split; discriminate.
Qed.

(** X5: registration is not idempotent: after a tool was registered,
    registering it again is refused as a duplicate, and the refusal leaves
    the request as the first registration left it. *)
Theorem ProcessRequest_twice f req req1 :
  ProcessRequest f req = Done (req1, None) ->
  ProcessRequest f req1
    = Done (req1, Some (Errorf "duplicate tool: %q" (FmtQ (Name f)))).
Proof.
  intros Hfirst.
  pose proof (ProcessRequest_ok_fresh f req req1 Hfirst) as Hfresh.
  rewrite (ProcessRequest_fresh f req _ Hfresh (Declaration_eq f)) in Hfirst.
  injection Hfirst as <-.
  apply (ProcessRequest_taken _ _ (FnTool f)).
  cbn [Tools map_index]. apply lookup_insert_eq.
Qed.

End RegistrationLaws.

(** ** Registration of tools of different types *)

Section RegistrationAny.
Context {lib : JSONSchema}.
Context {V : Type}.
Context {C1 A1 R1 C2 A2 R2 : Type}.
Implicit Types f : functionTool C1 A1 R1.
Implicit Types g : functionTool C2 A2 R2.
Implicit Types req : Request V.

(** [ProcessRequest] is [ProcessRequestAny] at the tool map that holds
    tools of one type. *)
Lemma ProcessRequest_as_Any f (req : Request (ToolValue C1 A1 R1)) :
  ProcessRequest f req = ProcessRequestAny FnTool f req.
Proof. reflexivity. Qed.

Lemma map_lookup_default (tools : option (gmap string V)) k :
  default ∅ tools !! k = map_index tools k.
Proof. destruct tools; [reflexivity | apply lookup_empty]. Qed.

(** Registration of a fresh name, whatever the tool map holds. *)
Lemma ProcessRequestAny_fresh {C A R : Type} (toAny : functionTool C A R -> V)
    (t : functionTool C A R) req d :
  map_index (Tools req) (Name t) = None ->
  Declaration t = Some d ->
  ProcessRequestAny toAny t req =
    Done ({| Tools := Some (<[Name t := toAny t]> (default ∅ (Tools req)));
             GenerateConfig :=
               Some {| gc_Tools := declarations req
                                     ++ [ {| FunctionDeclarations := [d] |} ] |} |},
          None).
Proof.
  intros Hfresh Hd. unfold ProcessRequestAny, declarations.
  destruct req as [[tools|] c]; cbn [Tools GenerateConfig map_index] in *.
  - rewrite Hfresh. cbn [map_assign outcome_bind Tools GenerateConfig].
    rewrite Hd. destruct c as [c|]; reflexivity.
  - rewrite lookup_empty. cbn [map_assign outcome_bind Tools GenerateConfig].
    rewrite Hd. destruct c as [c|]; reflexivity.
Qed.

(** The second of two registrations under different fresh names. *)
Lemma ProcessRequestAny_second {C A R C' A' R' : Type}
    (toAny : functionTool C A R -> V) (toAny' : functionTool C' A' R' -> V)
    (t : functionTool C A R) (t' : functionTool C' A' R') req d d' :
  Name t <> Name t' ->
  map_index (Tools req) (Name t') = None ->
  Declaration t = Some d ->
  Declaration t' = Some d' ->
  ProcessRequestAny toAny' t'
    {| Tools := Some (<[Name t := toAny t]> (default ∅ (Tools req)));
       GenerateConfig :=
         Some {| gc_Tools := declarations req
                               ++ [ {| FunctionDeclarations := [d] |} ] |} |}
  = Done ({| Tools := Some (<[Name t' := toAny' t']>
                              (<[Name t := toAny t]> (default ∅ (Tools req))));
             GenerateConfig :=
               Some {| gc_Tools := declarations req
                                     ++ [ {| FunctionDeclarations := [d] |};
                                          {| FunctionDeclarations := [d'] |} ] |} |},
          None).
Proof.
  intros Hne Hfresh Hd Hd'.
  rewrite (ProcessRequestAny_fresh toAny' t' _ d'); [|
    cbn [Tools map_index]; rewrite lookup_insert_ne by exact Hne;
    rewrite map_lookup_default; exact Hfresh | exact Hd'].
  cbn [Tools GenerateConfig declarations gc_Tools default].
  rewrite <- app_assoc. reflexivity.
Qed.

(** X6: two tools of different names, of the same or of different
    handler types, both fresh in the request, register one after the
    other; afterwards both are found under their names and the declaration
    list holds their entries in the order of registration, after the
    declarations that were there. *)
Theorem ProcessRequestAny_in_order
    (toAny1 : functionTool C1 A1 R1 -> V) (toAny2 : functionTool C2 A2 R2 -> V)
    f g req :
  Name f <> Name g ->
  map_index (Tools req) (Name f) = None ->
  map_index (Tools req) (Name g) = None ->
  exists r1 r2 df dg,
    Declaration f = Some df /\ Declaration g = Some dg
    /\ ProcessRequestAny toAny1 f req = Done (r1, None)
    /\ ProcessRequestAny toAny2 g r1 = Done (r2, None)
    /\ declarations r2
       = declarations req ++ [ {| FunctionDeclarations := [df] |};
                               {| FunctionDeclarations := [dg] |} ]
    /\ map_index (Tools r2) (Name f) = Some (toAny1 f)
    /\ map_index (Tools r2) (Name g) = Some (toAny2 g).
Proof.
  intros Hne Hf Hg.
  eexists _, _, _, _.
  split; [apply Declaration_eq|]. split; [apply Declaration_eq|].
  split; [apply (ProcessRequestAny_fresh toAny1 f req _ Hf (Declaration_eq f))|].
  split; [apply (ProcessRequestAny_second toAny1 toAny2 f g req _ _ Hne Hg
                   (Declaration_eq f) (Declaration_eq g))|].
  cbn [declarations GenerateConfig gc_Tools Tools map_index].
  split; [reflexivity|]. split; [|apply lookup_insert_eq].
  rewrite lookup_insert_ne by congruence. apply lookup_insert_eq.
Qed.

(** X7: the tool map does not depend on the order in which two tools of
    different names, of the same or of different handler types, are
    registered; the order of the two appended declaration entries does. *)
Theorem ProcessRequestAny_order
    (toAny1 : functionTool C1 A1 R1 -> V) (toAny2 : functionTool C2 A2 R2 -> V)
    f g req :
  Name f <> Name g ->
  map_index (Tools req) (Name f) = None ->
  map_index (Tools req) (Name g) = None ->
  exists r1 r2 s1 s2 df dg,
    Declaration f = Some df /\ Declaration g = Some dg
    /\ ProcessRequestAny toAny1 f req = Done (r1, None)
    /\ ProcessRequestAny toAny2 g r1 = Done (r2, None)
    /\ ProcessRequestAny toAny2 g req = Done (s1, None)
    /\ ProcessRequestAny toAny1 f s1 = Done (s2, None)
    /\ Tools r2 = Tools s2
    /\ declarations r2
       = declarations req ++ [ {| FunctionDeclarations := [df] |};
                               {| FunctionDeclarations := [dg] |} ]
    /\ declarations s2
       = declarations req ++ [ {| FunctionDeclarations := [dg] |};
                               {| FunctionDeclarations := [df] |} ].
Proof.
  intros Hne Hf Hg.
  assert (Hne' : Name g <> Name f) by congruence.
  eexists _, _, _, _, _, _.
  split; [apply Declaration_eq|]. split; [apply Declaration_eq|].
  split; [apply (ProcessRequestAny_fresh toAny1 f req _ Hf (Declaration_eq f))|].
  split; [apply (ProcessRequestAny_second toAny1 toAny2 f g req _ _ Hne Hg
                   (Declaration_eq f) (Declaration_eq g))|].
  split; [apply (ProcessRequestAny_fresh toAny2 g req _ Hg (Declaration_eq g))|].
  split; [apply (ProcessRequestAny_second toAny2 toAny1 g f req _ _ Hne' Hf
                   (Declaration_eq g) (Declaration_eq f))|].
  cbn [declarations GenerateConfig gc_Tools Tools].
  split; [f_equal; apply insert_insert_ne; exact Hne'|].
  split; reflexivity.
Qed.
End RegistrationAny.

(** X6, at [add], of types [Args] and [Results], and then [iszero], of
    types [Z] and [bool], registered into the zero-valued request. *)
Lemma ProcessRequestAny_in_order_witness :
  Name Add.tool <> Name IsZero.tool
  /\ exists r1 r2 df dg,
       Declaration Add.tool = Some df /\ Declaration IsZero.tool = Some dg
       /\ ProcessRequestAny AnyTool Add.tool zeroRequest = Done (r1, None)
       /\ ProcessRequestAny AnyTool IsZero.tool r1 = Done (r2, None)
       /\ declarations r2
          = declarations (ToolValue := ToolAny) zeroRequest
            ++ [ {| FunctionDeclarations := [df] |};
                 {| FunctionDeclarations := [dg] |} ]
       /\ map_index (Tools r2) (Name Add.tool) = Some (AnyTool Add.tool)
       /\ map_index (Tools r2) (Name IsZero.tool) = Some (AnyTool IsZero.tool).
Proof.
  assert (Hne : Name Add.tool <> Name IsZero.tool)
    by (intros Heq; vm_compute in Heq; discriminate Heq).
  split; [exact Hne|].
  apply (ProcessRequestAny_in_order (V := ToolAny) AnyTool AnyTool
           Add.tool IsZero.tool zeroRequest Hne);
    reflexivity.
Defined.

(** X7, at [add] and [iszero] and the zero-valued request. *)
Lemma ProcessRequestAny_order_witness :
  Name Add.tool <> Name IsZero.tool
  /\ exists r1 r2 s1 s2 df dg,
       Declaration Add.tool = Some df /\ Declaration IsZero.tool = Some dg
       /\ ProcessRequestAny AnyTool Add.tool zeroRequest = Done (r1, None)
       /\ ProcessRequestAny AnyTool IsZero.tool r1 = Done (r2, None)
       /\ ProcessRequestAny AnyTool IsZero.tool zeroRequest = Done (s1, None)
       /\ ProcessRequestAny AnyTool Add.tool s1 = Done (s2, None)
       /\ Tools r2 = Tools s2
       /\ declarations r2
          = declarations (ToolValue := ToolAny) zeroRequest
            ++ [ {| FunctionDeclarations := [df] |};
                 {| FunctionDeclarations := [dg] |} ]
       /\ declarations s2
          = declarations (ToolValue := ToolAny) zeroRequest
            ++ [ {| FunctionDeclarations := [dg] |};
                 {| FunctionDeclarations := [df] |} ].
Proof.
  assert (Hne : Name Add.tool <> Name IsZero.tool)
    by (intros Heq; vm_compute in Heq; discriminate Heq).
  split; [exact Hne|].
  apply (ProcessRequestAny_order (V := ToolAny) AnyTool AnyTool
           Add.tool IsZero.tool zeroRequest Hne);
    reflexivity.
Defined.

(** X2, at the registration of [sub] into the request that holds
    [add]. *)
Lemma ProcessRequest_stores_witness :
  map_index (Tools Add.taken) (Name Sub.tool) = None
  /\ exists req',
       ProcessRequest Sub.tool Add.taken = Done (req', None)
       /\ map_index (Tools req') (Name Sub.tool) = Some (FnTool Sub.tool)
       /\ (forall k, k <> Name Sub.tool ->
             map_index (Tools req') k = map_index (Tools Add.taken) k)
       /\ (size <$> Tools req') = Some (S (size (default ∅ (Tools Add.taken)))).
Proof.
  split; [reflexivity|].
  apply (ProcessRequest_stores Sub.tool Add.taken).
  reflexivity.
Defined.

(** X3, at the registration of [sub] into the request that holds
    [add]. *)
Lemma ProcessRequest_appends_witness :
  map_index (Tools Add.taken) (Name Sub.tool) = None
  /\ exists req' d,
       ProcessRequest Sub.tool Add.taken = Done (req', None)
       /\ declarations req'
          = declarations Add.taken ++ [ {| FunctionDeclarations := [d] |} ]
       /\ fd_Name d = Name Sub.tool
       /\ fd_Description d = Description Sub.tool
       /\ ParametersJsonSchema d = Resolved_Schema <$> inputSchema Sub.tool
       /\ ResponseJsonSchema d = Resolved_Schema <$> outputSchema Sub.tool.
Proof.
  split; [reflexivity|].
  apply (ProcessRequest_appends Sub.tool Add.taken).
  reflexivity.
Defined.

(** X5, at the registration of [add] into the zero-valued request. *)
Lemma ProcessRequest_twice_witness :
  ProcessRequest Add.tool zeroRequest = Done (Add.taken, None)
  /\ ProcessRequest Add.tool Add.taken
     = Done (Add.taken,
             Some (Errorf "duplicate tool: %q" (FmtQ (Name Add.tool)))).
Proof.
  split; [reflexivity|].
  apply (ProcessRequest_twice Add.tool zeroRequest Add.taken).
  reflexivity.
Defined.

(** ** Invocation *)

Section InvocationLaws.
Context {lib : JSONSchema}.
Context {ToolContext TArgs TResults : Type}.
Context {convArgs : ConvertTo GoMap TArgs}.
Context {convResults : ConvertTo TResults GoMap}.
Implicit Types f : functionTool ToolContext TArgs TResults.

(** X8: the outgoing calls of one [Run] are none, or the input
    conversion alone, or the input conversion, one call of the handler
    with the context [Run] received, and the conversion of what the handler
    returned, in this order.  So the handler is called at most once, never
    before its input was converted, and its output is always converted. *)
Theorem Run_trace_shape f ctx args :
  let tr := snd (Run f ctx args) in
  (tr = []
   \/ (exists m, tr = [EvConvertArgs m (inputSchema f)])
   \/ (exists m x,
         tr = [EvConvertArgs m (inputSchema f);
               EvHandler ctx x;
               EvConvertResults (handler f ctx x) (outputSchema f)]))
  /\ length (handlerCalls tr) <= 1
  /\ length (conversions tr) <= 2.
Proof.
  cbv zeta.
  destruct args;
    try (rewrite Run_not_map by discriminate; cbn; split; [left; reflexivity | lia]).
  destruct (ConvertToWithJSONSchema m (inputSchema f)) as [x [e|]] eqn:Hconv.
  - rewrite (Run_conversion_failed f ctx m x e Hconv). cbn.
    split; [right; left; eauto | lia].
  - rewrite (Run_converted f ctx m x Hconv). cbn.
    split; [right; right; eauto | lia].
Qed.

(** X9: when [Run] returns no error, the argument was a
    [map[string]any], both conversions returned no error, the handler was
    called exactly once, and the result is the bag of the output
    conversion, as a map value and never as the nil interface. *)
Theorem Run_success f ctx args r tr :
  Run f ctx args = ((r, None), tr) ->
  exists m x resp,
    args = AnyMap m
    /\ ConvertToWithJSONSchema m (inputSchema f) = (x, None)
    /\ ConvertToWithJSONSchema (handler f ctx x) (outputSchema f) = (resp, None)
    /\ r = AnyMap resp
    /\ handlerCalls tr = [x].
Proof.
  intros Hrun.
  destruct args; try (rewrite Run_not_map in Hrun by discriminate; discriminate Hrun).
  destruct (ConvertToWithJSONSchema m (inputSchema f)) as [x [e|]] eqn:Hconv.
  - rewrite (Run_conversion_failed f ctx m x e Hconv) in Hrun. discriminate Hrun.
  - rewrite (Run_converted f ctx m x Hconv) in Hrun. cbv zeta in Hrun.
    destruct (ConvertToWithJSONSchema (handler f ctx x) (outputSchema f))
      as [resp err] eqn:Hout.
    cbn [fst snd] in Hrun. injection Hrun as <- -> <-.
    exists m, x, resp.
    split; [reflexivity|]. split; [exact Hconv|]. split; [exact Hout|].
    split; reflexivity.
Qed.

(** X10: the input conversion is attempted exactly when the argument is
    a [map[string]any]; the nil map is one, and is handed to the
    conversion, while the nil interface is not. *)
Theorem Run_converts_iff_map f ctx args :
  (snd (Run f ctx args) = [] <-> forall m, args <> AnyMap m)
  /\ (exists rest,
        snd (Run f ctx (AnyMap None)) = EvConvertArgs None (inputSchema f) :: rest)
  /\ snd (Run f ctx AnyNil) = [].
Proof.
  split; [|split].
  - split.
    + intros Hnone m ->.
      destruct (ConvertToWithJSONSchema m (inputSchema f)) as [x [e|]] eqn:Hconv.
      * rewrite (Run_conversion_failed f ctx m x e Hconv) in Hnone. discriminate.
      * rewrite (Run_converted f ctx m x Hconv) in Hnone. discriminate.
    + intros Hshape. rewrite (Run_not_map f ctx args Hshape). reflexivity.
  - destruct (ConvertToWithJSONSchema None (inputSchema f)) as [x [e|]] eqn:Hconv.
    + rewrite (Run_conversion_failed f ctx None x e Hconv). eauto.
    + rewrite (Run_converted f ctx None x Hconv). eauto.
  - reflexivity.
Qed.
End InvocationLaws.

(** X9, at the scenario [add({a: 2, b: 3}) = {sum: 5}]. *)
Lemma Run_success_witness :
  Run Add.tool tt (AnyMap Add.goodBag)
    = ((AnyMap (Some {[ "sum" := AnyInt 5 ]}), None),
       [EvConvertArgs Add.goodBag (inputSchema Add.tool);
        EvHandler tt {| Add.a := 2; Add.b := 3 |};
        EvConvertResults {| Add.sum := 5 |} (outputSchema Add.tool)])
  /\ exists m x resp,
       AnyMap Add.goodBag = AnyMap m
       /\ ConvertToWithJSONSchema m (inputSchema Add.tool) = (x, None)
       /\ ConvertToWithJSONSchema (handler Add.tool tt x) (outputSchema Add.tool)
          = (resp, None)
       /\ AnyMap (Some {[ "sum" := AnyInt 5 ]}) = AnyMap resp
       /\ handlerCalls
            [EvConvertArgs Add.goodBag (inputSchema Add.tool);
             EvHandler tt {| Add.a := 2; Add.b := 3 |};
             EvConvertResults {| Add.sum := 5 |} (outputSchema Add.tool)]
          = [x].
Proof.
  split; [reflexivity|].
  apply (Run_success Add.tool tt (AnyMap Add.goodBag)
           (AnyMap (Some {[ "sum" := AnyInt 5 ]}))
           [EvConvertArgs Add.goodBag (inputSchema Add.tool);
            EvHandler tt {| Add.a := 2; Add.b := 3 |};
            EvConvertResults {| Add.sum := 5 |} (outputSchema Add.tool)]).
  reflexivity.
Defined.

(** ** Construction *)

Section ConstructionLaws.
Context {lib : JSONSchema}.
Context {ToolContext TArgs TResults : Type}.
Context {schemaArgs : TypeSchema TArgs} {schemaResults : TypeSchema TResults}.
Context {convArgs : ConvertTo GoMap TArgs}.
Context {convResults : ConvertTo TResults GoMap}.
Implicit Types c : FunctionToolConfig.
Implicit Types h : Function ToolContext TArgs TResults.
Implicit Types f : functionTool ToolContext TArgs TResults.

(** What a tool that [NewFunctionTool] returned is made of. *)
Lemma NewFunctionTool_inv c h f :
  NewFunctionTool c h = (Some f, None) ->
  f = {| cfg := c;
         inputSchema := fst (resolvedSchema TArgs (InputSchema c));
         outputSchema := fst (resolvedSchema TResults (OutputSchema c));
         handler := h |}
  /\ snd (resolvedSchema TArgs (InputSchema c)) = None
  /\ snd (resolvedSchema TResults (OutputSchema c)) = None.
Proof.
  unfold NewFunctionTool.
  destruct (resolvedSchema TArgs (InputSchema c)) as [ri [e|]]; [discriminate|].
  destruct (resolvedSchema TResults (OutputSchema c)) as [ro [e|]]; [discriminate|].
  intros [= <-]. auto.
Qed.

(** A resolution without error went through [Resolve]. *)
Lemma resolvedSchema_ok (T : Type) {d : TypeSchema T} override r :
  resolvedSchema T override = (r, None) ->
  exists s, Schema_Resolve s = (r, None).
Proof.
  unfold resolvedSchema. destruct override as [s|]; [eauto|].
  destruct (For T) as [schema [e|]]; [discriminate | eauto].
Qed.

(** X11: [NewFunctionTool] returns a tool and no error, or no tool and
    an error; never both and never neither. *)
Theorem NewFunctionTool_tool_xor_error c h :
  (exists f, NewFunctionTool c h = (Some f, None))
  \/ (exists e, NewFunctionTool c h = (None, Some e)).
Proof.
  unfold NewFunctionTool.
  destruct (resolvedSchema TArgs (InputSchema c)) as [ri [e|]]; [right; eauto|].
  destruct (resolvedSchema TResults (OutputSchema c)) as [ro [e|]];
    [right | left]; eauto.
Qed.

(** X12: a tool that [NewFunctionTool] returns reports the name and the
    description of its configuration, holds the handler it was given, and
    declares itself under that name and description. *)
Theorem NewFunctionTool_fields c h f :
  NewFunctionTool c h = (Some f, None) ->
  Name f = cfg_Name c
  /\ Description f = cfg_Description c
  /\ handler f = h
  /\ exists d, Declaration f = Some d
               /\ fd_Name d = cfg_Name c
               /\ fd_Description d = cfg_Description c.
Proof.
  intros Hnew. destruct (NewFunctionTool_inv c h f Hnew) as (-> & _ & _).
  repeat split. eexists. split; [apply Declaration_eq|]. split; reflexivity.
Qed.

(** X13: when [Resolve] returns a resolved schema whenever it returns no
    error, a tool that [NewFunctionTool] returns has both schemas, and its
    declaration carries the raw form of both: a tool without schemas does
    not come out of [NewFunctionTool]. *)
Theorem NewFunctionTool_declares_schemas c h f :
  (forall s r, Schema_Resolve s = (r, None) -> r <> None) ->
  NewFunctionTool c h = (Some f, None) ->
  exists ri ro d,
    inputSchema f = Some ri
    /\ outputSchema f = Some ro
    /\ Declaration f = Some d
    /\ ParametersJsonSchema d = Some (Resolved_Schema ri)
    /\ ResponseJsonSchema d = Some (Resolved_Schema ro).
Proof.
  intros Hlib Hnew. destruct (NewFunctionTool_inv c h f Hnew) as (-> & Hin & Hout).
  cbn [inputSchema outputSchema].
  destruct (resolvedSchema TArgs (InputSchema c)) as [ri ei] eqn:Hri.
  destruct (resolvedSchema TResults (OutputSchema c)) as [ro eo] eqn:Hro.
  cbn [fst snd] in *. subst ei eo.
  destruct (resolvedSchema_ok TArgs _ _ Hri) as [si Hsi].
  destruct (resolvedSchema_ok TResults _ _ Hro) as [so Hso].
  destruct ri as [ri|]; [|exfalso; exact (Hlib _ _ Hsi eq_refl)].
  destruct ro as [ro|]; [|exfalso; exact (Hlib _ _ Hso eq_refl)].
  exists ri, ro. eexists. split; [reflexivity|]. split; [reflexivity|].
  split; [apply Declaration_eq|]. split; reflexivity.
Qed.

(** X14: a tool built from an explicit input schema converts the
    arguments of every invocation against what resolving that schema
    returned, whatever the input type of the handler is; and when that
    conversion returns no error, the handler called is the one given to
    [NewFunctionTool]. *)
Theorem NewFunctionTool_override_at_Run c h f s ctx m :
  NewFunctionTool c h = (Some f, None) ->
  InputSchema c = Some s ->
  exists rest,
    snd (Run f ctx (AnyMap m))
      = EvConvertArgs m (fst (Schema_Resolve (Some s))) :: rest
    /\ forall x,
         ConvertToWithJSONSchema m (fst (Schema_Resolve (Some s))) = (x, None) ->
         rest = [EvHandler ctx x;
                 EvConvertResults (h ctx x)
                   (fst (resolvedSchema TResults (OutputSchema c)))].
Proof.
  intros Hnew Hoverride.
  destruct (NewFunctionTool_inv c h f Hnew) as (-> & _ & _).
  rewrite Hoverride. cbn [resolvedSchema].
  set (f := {| cfg := c; inputSchema := fst (Schema_Resolve (Some s));
               outputSchema := fst (resolvedSchema TResults (OutputSchema c));
               handler := h |}).
  destruct (ConvertToWithJSONSchema m (fst (Schema_Resolve (Some s))))
    as [x [e|]] eqn:Hconv.
  - rewrite (Run_conversion_failed f ctx m x e Hconv).
    eexists. split; [reflexivity|]. intros y [=].
  - rewrite (Run_converted f ctx m x Hconv).
    eexists. split; [reflexivity|]. intros y [= <-]. reflexivity.
Qed.
End ConstructionLaws.

(** X12, at the configuration of [add]. *)
Lemma NewFunctionTool_fields_witness :
  NewFunctionTool Add.config Add.add = (Some Add.tool, None)
  /\ Name Add.tool = "add"
  /\ Description Add.tool = "adds two integers"
  /\ handler Add.tool = Add.add
  /\ exists d, Declaration Add.tool = Some d
               /\ fd_Name d = "add"
               /\ fd_Description d = "adds two integers".
Proof.
  split; [reflexivity|].
  apply (NewFunctionTool_fields (lib := Add.lib) Add.config Add.add Add.tool).
  reflexivity.
Defined.

(** X13, at the configuration of [add] and the schema library of the
    scenario, whose [resolve] returns a schema whenever it returns no
    error. *)
Lemma NewFunctionTool_declares_schemas_witness :
  (forall s r, Add.resolve s = (r, None) -> r <> None)
  /\ exists ri ro d,
       inputSchema Add.tool = Some ri
       /\ outputSchema Add.tool = Some ro
       /\ Declaration Add.tool = Some d
       /\ ParametersJsonSchema d = Some ri
       /\ ResponseJsonSchema d = Some ro.
Proof.
  assert (Hlib : forall s r, Add.resolve s = (r, None) -> r <> None).
  { intros [[| |]|] r; simpl; intros [= <-]; discriminate. }
  split; [exact Hlib|].
  apply (NewFunctionTool_declares_schemas (lib := Add.lib)
           Add.config Add.add Add.tool Hlib).
  reflexivity.
Defined.

(** X14, at [add] behind the explicit schema that accepts every bag. *)
Lemma NewFunctionTool_override_at_Run_witness :
  NewFunctionTool Add.looseConfig Add.add = (Some Add.looseTool, None)
  /\ InputSchema Add.looseConfig = Some Add.Anything
  /\ exists rest,
       snd (Run Add.looseTool tt (AnyMap Add.goodBag))
         = EvConvertArgs Add.goodBag (Some Add.Anything) :: rest
       /\ forall x,
            ConvertToWithJSONSchema Add.goodBag (Some Add.Anything) = (x, None) ->
            rest = [EvHandler tt x;
                    EvConvertResults (Add.add tt x)
                      (fst (resolvedSchema Add.Results
                              (OutputSchema Add.looseConfig)))].
Proof.
  split; [reflexivity|]. split; [reflexivity|].
  apply (NewFunctionTool_override_at_Run (lib := Add.lib)
           Add.looseConfig Add.add Add.looseTool Add.Anything tt Add.goodBag);
    reflexivity.
Defined.

(** ** Errors of an invocation, and construction followed by registration *)

Section CompositionLaws.
Context {lib : JSONSchema}.
Context {ToolContext TArgs TResults : Type}.
Context {schemaArgs : TypeSchema TArgs} {schemaResults : TypeSchema TResults}.
Context {convArgs : ConvertTo GoMap TArgs}.
Context {convResults : ConvertTo TResults GoMap}.
Implicit Types f : functionTool ToolContext TArgs TResults.

(** X15: an error of [Run] has one of two origins.  Either the handler
    was not called and the result is the nil interface; or the handler was
    called once, the error is the one the conversion of its output
    returned, and the result is the map that conversion returned with the
    error, wrapped as a map value. *)
Theorem Run_error_cases f ctx args r e tr :
  Run f ctx args = ((r, Some e), tr) ->
  (handlerCalls tr = [] /\ r = AnyNil)
  \/ (exists x resp,
        handlerCalls tr = [x]
        /\ ConvertToWithJSONSchema (handler f ctx x) (outputSchema f) = (resp, Some e)
        /\ r = AnyMap resp).
Proof.
  intros Hrun.
  destruct args;
    try (rewrite Run_not_map in Hrun by discriminate;
         injection Hrun as <- _ <-; left; split; reflexivity).
  destruct (ConvertToWithJSONSchema m (inputSchema f)) as [x [e'|]] eqn:Hconv.
  - rewrite (Run_conversion_failed f ctx m x e' Hconv) in Hrun.
    injection Hrun as <- _ <-. left. split; reflexivity.
  - rewrite (Run_converted f ctx m x Hconv) in Hrun. cbv zeta in Hrun.
    destruct (ConvertToWithJSONSchema (handler f ctx x) (outputSchema f))
      as [resp err] eqn:Hout.
    cbn [fst snd] in Hrun. injection Hrun as <- -> <-.
    right. exists x, resp. split; [reflexivity|]. split; [exact Hout | reflexivity].
Qed.

(** X16: a tool that [NewFunctionTool] returns registers into the
    zero-valued request; afterwards the tool map holds it under the name of
    its configuration and nothing else, and the declaration list holds one
    entry, declared under that name. *)
Theorem NewFunctionTool_then_ProcessRequest
    (c : FunctionToolConfig) (h : Function ToolContext TArgs TResults) f :
  NewFunctionTool c h = (Some f, None) ->
  exists req' d,
    ProcessRequest f zeroRequest = Done (req', None)
    /\ Tools req' = Some {[ cfg_Name c := FnTool f ]}
    /\ declarations req' = [ {| FunctionDeclarations := [d] |} ]
    /\ fd_Name d = cfg_Name c
    /\ fd_Description d = cfg_Description c.
Proof.
  intros Hnew.
  assert (Hname : Name f = cfg_Name c /\ Description f = cfg_Description c).
  { unfold NewFunctionTool in Hnew.
    destruct (resolvedSchema TArgs (InputSchema c)) as [ri [e|]]; [discriminate|].
    destruct (resolvedSchema TResults (OutputSchema c)) as [ro [e|]]; [discriminate|].
    injection Hnew as <-. split; reflexivity. }
  destruct Hname as [Hname Hdescr].
  rewrite (ProcessRequest_fresh f zeroRequest _ eq_refl (Declaration_eq f)).
  eexists _, _. split; [reflexivity|].
  cbn [Tools declarations GenerateConfig gc_Tools zeroRequest default app].
  rewrite insert_empty, Hname.
  split; [reflexivity|]. split; [reflexivity|].
  cbn [fd_Name fd_Description]. split; [reflexivity | exact Hdescr].
Qed.
End CompositionLaws.

(** X15, at [Add.strictTool], whose handler runs and whose output then
    fails validation. *)
Lemma Run_error_cases_witness :
  Run Add.strictTool tt (AnyMap Add.goodBag)
    = ((AnyMap None, Some (LibError "validation failed")),
       [EvConvertArgs Add.goodBag (inputSchema Add.strictTool);
        EvHandler tt {| Add.a := 2; Add.b := 3 |};
        EvConvertResults {| Add.sum := 5 |} (outputSchema Add.strictTool)])
  /\ ((handlerCalls
         [EvConvertArgs Add.goodBag (inputSchema Add.strictTool);
          EvHandler tt {| Add.a := 2; Add.b := 3 |};
          EvConvertResults {| Add.sum := 5 |} (outputSchema Add.strictTool)]
       = [] /\ AnyMap None = AnyNil)
      \/ (exists x resp,
            handlerCalls
              [EvConvertArgs Add.goodBag (inputSchema Add.strictTool);
               EvHandler tt {| Add.a := 2; Add.b := 3 |};
               EvConvertResults {| Add.sum := 5 |} (outputSchema Add.strictTool)]
            = [x]
            /\ ConvertToWithJSONSchema (handler Add.strictTool tt x)
                 (outputSchema Add.strictTool)
               = (resp, Some (LibError "validation failed"))
            /\ AnyMap None = AnyMap resp)).
Proof.
  split; [reflexivity|].
  apply (Run_error_cases Add.strictTool tt (AnyMap Add.goodBag)).
  reflexivity.
Defined.

(** X16, at the configuration of [add]. *)
Lemma NewFunctionTool_then_ProcessRequest_witness :
  NewFunctionTool Add.config Add.add = (Some Add.tool, None)
  /\ exists req' d,
       ProcessRequest Add.tool zeroRequest = Done (req', None)
       /\ Tools req' = Some {[ "add" := FnTool Add.tool ]}
       /\ declarations req' = [ {| FunctionDeclarations := [d] |} ]
       /\ fd_Name d = "add"
       /\ fd_Description d = "adds two integers".
Proof.
  split; [reflexivity|].
  apply (NewFunctionTool_then_ProcessRequest (lib := Add.lib)
           Add.config Add.add Add.tool).
  reflexivity.
Defined.
